(** * Arcmonitor: a shallow embedding of the sampling/capture engine of
    [src/Arcmonitor.py] (class [JarvisMonitor]).

    Modelling conventions.
    - A [datetime] is a [Z] count of microseconds.  [timedelta.total_seconds()]
      is [d / 10^6] as a float; for an integral [d] the comparison of that
      quotient with an integral threshold [k] agrees with [d] against
      [k * 10^6], which is how the comparisons are written here.
    - [datetime.isoformat] (standard library) is passed in as a function
      [isoformat : Z -> string].
    - Everything the outside world decides during a tick (the foreground
      window, the clock readings, whether a screen grab, a file save, OCR, an
      encoder call or a database statement raises) is an explicit input
      record, one per loop iteration.
    - A raised exception that the code catches is written out as the path the
      [except] clause takes; observable side effects (sleeps, prints, files
      written, device use, database writes) are returned as a trace of
      [Effect]s.
    - The SQLite database is a [Store] of three append-only tables. *)

From Stdlib Require Import String Ascii List ZArith Bool Lia Sorting.Sorted.
From Stdlib Require Import PrimFloat Permutation.
Import ListNotations.
Open Scope string_scope.
Open Scope Z_scope.

(** ** Configuration (module constants) *)

Definition DATA_DIR : string := "JARVIS_DATA".
Definition SCREENSHOT_INTERVAL_ACTIVE : Z := 30.
Definition INACTIVITY_THRESHOLD : Z := 60.
Definition VIDEO_INTERVAL : Z := 1800.
Definition VIDEO_DURATION : Z := 10.
Definition OCR_ENABLED : bool := true.

(** Microseconds per second. *)
Definition sec : Z := 1000000.

(** [os.path.join] on POSIX. *)
Definition path_join (a b : string) : string := a ++ "/" ++ b.

(** ** Data model *)

Record MetricRow := mkMetricRow {
  mr_timestamp : string;
  mr_cpu : float;
  mr_memory : float;
  mr_network_sent : Z;
  mr_network_recv : Z }.

Record ActivityRow := mkActivityRow {
  ar_timestamp : string;
  ar_window_title : string;
  ar_process_name : string;
  ar_screenshot : string;
  ar_ocr_text : string;
  ar_active_session : bool }.

Record VideoRow := mkVideoRow {
  vr_timestamp : string;
  vr_duration : Z;
  vr_file_path : string }.

(** The database: tables [metrics], [activities] and [videos]; an INSERT
    appends a row. *)
Record Store := mkStore {
  metrics : list MetricRow;
  activities : list ActivityRow;
  videos : list VideoRow }.

Definition empty_store : Store := mkStore [] [] [].

Definition insert_metric (st : Store) (r : MetricRow) : Store :=
  mkStore (metrics st ++ [r]) (activities st) (videos st).
Definition insert_activity (st : Store) (r : ActivityRow) : Store :=
  mkStore (metrics st) (activities st ++ [r]) (videos st).
Definition insert_video (st : Store) (r : VideoRow) : Store :=
  mkStore (metrics st) (activities st) (videos st ++ [r]).

(** The mutable attributes of a [JarvisMonitor] the loops read and write. *)
Record Monitor := mkMonitor {
  monitoring_enabled : bool;
  current_window : string * string;
  last_activity : Z;
  last_screenshot : Z;
  last_video : Z }.

Definition set_window (m : Monitor) (w : string * string) (t : Z) : Monitor :=
  mkMonitor (monitoring_enabled m) w t (last_screenshot m) (last_video m).
Definition set_last_screenshot (m : Monitor) (t : Z) : Monitor :=
  mkMonitor (monitoring_enabled m) (current_window m) (last_activity m) t
    (last_video m).
Definition set_last_video (m : Monitor) (t : Z) : Monitor :=
  mkMonitor (monitoring_enabled m) (current_window m) (last_activity m)
    (last_screenshot m) t.

(** [toggle_monitoring]. *)
Definition toggle_monitoring (m : Monitor) : Monitor :=
  mkMonitor (negb (monitoring_enabled m)) (current_window m) (last_activity m)
    (last_screenshot m) (last_video m).

(** Observable side effects. *)
Inductive Effect :=
| ESleepMs (ms : Z)            (* time.sleep *)
| EPrint (msg : string)        (* print of an error message *)
| EGrabScreen                  (* ImageGrab.grab() *)
| ESaveFile (path : string)    (* an artifact written to disk *)
| ERunOcr                      (* pytesseract invoked *)
| EReadMetrics                 (* psutil queries *)
| EOpenWriter (path : string)  (* mss.mss() + cv2.VideoWriter(path, ...) *)
| EWriteFrame                  (* sct.grab + cvtColor + out.write *)
| ERelease                     (* out.release() *)
| EDbWrite (table : string).   (* INSERT ... ; commit() *)

(** ** [get_active_window] *)

Inductive Platform := Windows | OtherPlatform.

(** [pe_win32]: [Some title] when [import win32gui],
    [GetForegroundWindow] and [GetWindowText] all succeed, [None] when one
    of them raises. *)
Record ProbeEnv := mkProbeEnv {
  pe_platform : Platform;
  pe_win32 : option string }.

Definition get_active_window (pe : ProbeEnv) : string * string :=
  match pe_platform pe with
  | Windows =>
      match pe_win32 pe with
      | Some title => (title, "Windows Process")
      | None => ("Unknown", "Unknown")
      end
  | OtherPlatform => ("Terminal", "bash")
  end.

(** The probe's platform call failed. *)
Definition probe_failed (pe : ProbeEnv) : bool :=
  match pe_platform pe, pe_win32 pe with
  | Windows, None => true
  | _, _ => false
  end.

(** ** [check_activity]: tuple comparison [current_window != self.current_window]. *)

Definition window_eqb (a b : string * string) : bool :=
  String.eqb (fst a) (fst b) && String.eqb (snd a) (snd b).

Definition check_activity (w : string * string) (t : Z) (m : Monitor)
  : Monitor * bool :=
  if negb (window_eqb w (current_window m)) then (set_window m w t, true)
  else (m, false).

(** ** [process_ocr] *)

(** Python's [str.isspace] on ASCII: tab, LF, VT, FF, CR, the separators
    0x1c-0x1f and space. *)
Definition is_space (c : ascii) : bool :=
  let n := nat_of_ascii c in
  ((9 <=? n) && (n <=? 13))%nat || ((28 <=? n) && (n <=? 32))%nat.

Fixpoint drop_spaces (l : list ascii) : list ascii :=
  match l with
  | [] => []
  | c :: l' => if is_space c then drop_spaces l' else l
  end.

(** [str.strip()]. *)
Definition strip (s : string) : string :=
  string_of_list_ascii
    (rev (drop_spaces (rev (drop_spaces (list_ascii_of_string s))))).

(** What [pytesseract.image_to_string(image.convert('L'))] does: raises, or
    returns a text. *)
Inductive OcrRun := OcrRaises | OcrText (s : string).

(** [process_ocr]; the module constant [OCR_ENABLED] is its first argument. *)
Definition process_ocr (ocr_enabled : bool) (o : OcrRun) : string * list Effect :=
  if ocr_enabled then
    match o with
    | OcrText s => (strip s, [ERunOcr])
    | OcrRaises => ("", [ERunOcr; EPrint "OCR Error"])
    end
  else ("", []).

(** ** [capture_screenshot] *)

(** [se_stamp] is [datetime.now().strftime("%Y%m%d_%H%M%S")];
    [se_grab_ok]: [ImageGrab.grab()] returns; [se_save_ok]:
    [img.save(path, "JPEG")] returns; [se_thumb]: [Some b64] when
    [img.thumbnail], the in-memory JPEG save and [b64encode] return, [None]
    when one of them raises. *)
Record ShotEnv := mkShotEnv {
  se_stamp : string;
  se_grab_ok : bool;
  se_save_ok : bool;
  se_ocr : OcrRun;
  se_thumb : option string }.

Definition screenshot_path (se : ShotEnv) : string :=
  path_join (path_join DATA_DIR "screenshots")
    ("screenshot_" ++ se_stamp se ++ ".jpg").

(** Returns [(path, b64_img, ocr_text)]; [None] is Python's [None]. *)
Definition capture_screenshot (ocr_enabled : bool) (se : ShotEnv)
  : (option string * option string * string) * list Effect :=
  let path := screenshot_path se in
  let fail (eff : list Effect) :=
    ((None, None, ""), app eff [EPrint "Screenshot error"]) in
  if negb (se_grab_ok se) then fail []
  else if negb (se_save_ok se) then fail [EGrabScreen]
  else
    let '(ocr_text, eff_ocr) := process_ocr ocr_enabled (se_ocr se) in
    let eff := EGrabScreen :: ESaveFile path :: eff_ocr in
    match se_thumb se with
    | Some b64_img => ((Some path, Some b64_img, ocr_text), eff)
    | None => fail eff
    end.

(** Python truthiness of [b64_img]: not [None] and not empty. *)
Definition truthy (o : option string) : bool :=
  match o with
  | Some s => negb (String.eqb s "")
  | None => false
  end.

(** The screenshot capture succeeded in the sense the loop tests. *)
Definition shot_ok (se : ShotEnv) : bool :=
  let '((_, b64_img, _), _) := capture_screenshot OCR_ENABLED se in
  truthy b64_img.

(** ** [monitor_activities]: one iteration of the [while] body *)

(** [ae_t_check] is the [datetime.now()] inside [check_activity], [ae_now]
    the one read right after it; [ae_db_ok] says whether the INSERT and
    commit return (otherwise the outer [except] catches). *)
Record ActEnv := mkActEnv {
  ae_probe : ProbeEnv;
  ae_t_check : Z;
  ae_now : Z;
  ae_shot : ShotEnv;
  ae_db_ok : bool }.

Definition activity_row (isoformat : Z -> string) (now : Z) (m : Monitor)
  (b64_img ocr_text : string) : ActivityRow :=
  mkActivityRow (isoformat now) (fst (current_window m)) (snd (current_window m))
    b64_img ocr_text true.

Definition activity_tick (isoformat : Z -> string) (ae : ActEnv) (m : Monitor)
  (st : Store) : Monitor * Store * list Effect :=
  if negb (monitoring_enabled m) then (m, st, [ESleepMs 1000])
  else
    let '(m1, _) := check_activity (get_active_window (ae_probe ae))
                      (ae_t_check ae) m in
    let now := ae_now ae in
    let inactive_time := now - last_activity m1 in
    if inactive_time <? INACTIVITY_THRESHOLD * sec then
      if now - last_screenshot m1 >=? SCREENSHOT_INTERVAL_ACTIVE * sec then
        let '((path, b64_img, ocr_text), eff) :=
          capture_screenshot OCR_ENABLED (ae_shot ae) in
        match b64_img with
        | Some b => if truthy b64_img then
            if ae_db_ok ae then
              (set_last_screenshot m1 now,
               insert_activity st (activity_row isoformat now m1 b ocr_text),
               app eff [EDbWrite "activities"; ESleepMs 1000])
            else (m1, st, app eff [EPrint "Activity monitoring error"])
          else (m1, st, app eff [ESleepMs 1000])
        | None => (m1, st, app eff [ESleepMs 1000])
        end
      else (m1, st, [ESleepMs 1000])
    else (m1, st, [ESleepMs 1000]).

(** ** [monitor_system]: one iteration *)

Record SysEnv := mkSysEnv {
  sy_now : Z;
  sy_cpu : float;
  sy_mem : float;
  sy_bytes_sent : Z;
  sy_bytes_recv : Z;
  sy_db_ok : bool }.

Definition system_tick (isoformat : Z -> string) (sy : SysEnv) (m : Monitor)
  (st : Store) : Monitor * Store * list Effect :=
  if negb (monitoring_enabled m) then (m, st, [ESleepMs 1000])
  else
    let timestamp := isoformat (sy_now sy) in
    if sy_db_ok sy then
      (m, insert_metric st (mkMetricRow timestamp (sy_cpu sy) (sy_mem sy)
                              (sy_bytes_sent sy) (sy_bytes_recv sy)),
       [EReadMetrics; EDbWrite "metrics"; ESleepMs 5000])
    else (m, st, [EReadMetrics; EPrint "System monitoring error"]).

(** ** [record_video] *)

(** [ve_open_ok]: [mss.mss()], [sct.monitors[1]] and [cv2.VideoWriter(...)]
    return; [ve_frames]: one entry per iteration of the capture [while] loop
    that the clock allows, [false] when [sct.grab], [cvtColor] or
    [out.write] raises in it; [ve_release_ok]: [out.release()] returns;
    [ve_db_ok]: the INSERT and commit return; [ve_insert_now] is the
    [datetime.now()] put into the row. *)
Record VidEnv := mkVidEnv {
  ve_stamp : string;
  ve_open_ok : bool;
  ve_frames : list bool;
  ve_release_ok : bool;
  ve_db_ok : bool;
  ve_insert_now : Z }.

Definition video_path (ve : VidEnv) : string :=
  path_join (path_join DATA_DIR "videos") ("recording_" ++ ve_stamp ve ++ ".mp4").

(** The frame loop: effects so far, and whether it ran to the end. *)
Fixpoint write_frames (fs : list bool) : list Effect * bool :=
  match fs with
  | [] => ([], true)
  | true :: fs' =>
      let '(eff, ok) := write_frames fs' in (EWriteFrame :: ESleepMs 40 :: eff, ok)
  | false :: _ => ([], false)
  end.

Definition record_video (isoformat : Z -> string) (ve : VidEnv) (st : Store)
  : option string * Store * list Effect :=
  let path := video_path ve in
  if negb (ve_open_ok ve) then (None, st, [EPrint "Video recording error"])
  else
    let '(eff_frames, frames_ok) := write_frames (ve_frames ve) in
    let eff := EOpenWriter path :: eff_frames in
    if negb frames_ok then (None, st, app eff [EPrint "Video recording error"])
    else if negb (ve_release_ok ve) then
      (None, st, app eff [EPrint "Video recording error"])
    else if negb (ve_db_ok ve) then
      (None, st, app eff [ERelease; EPrint "Video recording error"])
    else
      (Some path,
       insert_video st (mkVideoRow (isoformat (ve_insert_now ve)) VIDEO_DURATION path),
       app eff [ERelease; EDbWrite "videos"]).

(** Capture or encode raised: opening, a frame, or the release. *)
Definition video_failed (ve : VidEnv) : bool :=
  negb (ve_open_ok ve) || existsb negb (ve_frames ve) || negb (ve_release_ok ve).

(** ** [monitor_videos]: one iteration *)

(** [vt_now]: the [datetime.now()] of the interval test; [vt_after]: the one
    assigned to [self.last_video] after [record_video] returns. *)
Record VidTickEnv := mkVidTickEnv {
  vt_now : Z;
  vt_rec : VidEnv;
  vt_after : Z }.

Definition video_tick (isoformat : Z -> string) (vt : VidTickEnv) (m : Monitor)
  (st : Store) : Monitor * Store * list Effect :=
  if negb (monitoring_enabled m) then (m, st, [ESleepMs 1000])
  else if vt_now vt - last_video m >? VIDEO_INTERVAL * sec then
    let '(_, st', eff) := record_video isoformat (vt_rec vt) st in
    (set_last_video m (vt_after vt), st', app eff [ESleepMs 1000])
  else (m, st, [ESleepMs 1000]).

(** ** [get_activity_history] *)

(** [ORDER BY timestamp DESC] on the TEXT column (binary collation): an
    insertion sort on [String.leb], newest first. *)
Fixpoint insert_desc (r : ActivityRow) (l : list ActivityRow) : list ActivityRow :=
  match l with
  | [] => [r]
  | x :: l' =>
      if String.leb (ar_timestamp x) (ar_timestamp r) then r :: l
      else x :: insert_desc r l'
  end.

Definition sort_desc (l : list ActivityRow) : list ActivityRow :=
  fold_right insert_desc [] l.

(** [SELECT ... FROM activities WHERE active_session = 1
     ORDER BY timestamp DESC LIMIT 10]. *)
Definition select_activities (st : Store) : list ActivityRow :=
  firstn 10 (sort_desc (filter ar_active_session (activities st))).

(** One element of the JSON list returned. *)
Record HistoryItem := mkHistoryItem {
  hi_timestamp : string;
  hi_window : string;
  hi_process : string;
  hi_screenshot : string;
  hi_ocr_text : string }.

Definition to_item (r : ActivityRow) : HistoryItem :=
  mkHistoryItem (ar_timestamp r) (ar_window_title r) (ar_process_name r)
    (ar_screenshot r) (ar_ocr_text r).

Definition get_activity_history (st : Store) : list HistoryItem :=
  map to_item (select_activities st).

(** ** The engine: the three loops and the [/control] toggle, interleaved *)

Inductive Event :=
| EvActivity (ae : ActEnv)
| EvSystem (sy : SysEnv)
| EvVideo (vt : VidTickEnv)
| EvToggle.

Definition engine_step (isoformat : Z -> string) (ev : Event) (ms : Monitor * Store)
  : Monitor * Store :=
  let '(m, st) := ms in
  match ev with
  | EvActivity ae => let '(m', st', _) := activity_tick isoformat ae m st in (m', st')
  | EvSystem sy => let '(m', st', _) := system_tick isoformat sy m st in (m', st')
  | EvVideo vt => let '(m', st', _) := video_tick isoformat vt m st in (m', st')
  | EvToggle => (toggle_monitoring m, st)
  end.

Definition engine_run (isoformat : Z -> string) (evs : list Event) (m : Monitor)
  (st : Store) : Monitor * Store :=
  fold_left (fun ms ev => engine_step isoformat ev ms) evs (m, st).

(** ** [control_monitoring] (route [/control], POST) *)

(** [action] is [request.json.get('action')] for a JSON object body:
    [None] when the key is absent or not a string. Returns the monitor after
    the request and the [status] field of the JSON answer. *)
Definition control_monitoring (m : Monitor) (action : option string) : Monitor * bool :=
  let m' := match action with
            | Some a => if String.eqb a "toggle" then toggle_monitoring m else m
            | None => m
            end in
  (m', monitoring_enabled m').

(** ** [get_media_list] (route [/media-list]) *)

(** [str.endswith(suffix)]. *)
Definition ends_with (suffix s : string) : bool :=
  let n := String.length s in
  let k := String.length suffix in
  (k <=? n)%nat && String.eqb (substring (n - k) k s) suffix.

(** [sorted(..., reverse=True)] on file names (code-point order). *)
Fixpoint insert_name_desc (x : string) (l : list string) : list string :=
  match l with
  | [] => [x]
  | y :: l' => if String.leb y x then x :: l else y :: insert_name_desc x l'
  end.

Definition sort_names_desc (l : list string) : list string :=
  fold_right insert_name_desc [] l.

(** [sorted([f for f in files if f.endswith(suffix)], reverse=True)[:n]]. *)
Definition newest_with_suffix (suffix : string) (n : nat) (files : list string)
  : list string :=
  firstn n (sort_names_desc (filter (ends_with suffix) files)).

(** [shots] and [vids] are [os.listdir] of the two artifact directories;
    the result is the pair of JSON lists [screenshots] and [videos]. *)
Definition get_media_list (shots vids : list string) : list string * list string :=
  (newest_with_suffix ".jpg" 5 shots, newest_with_suffix ".mp4" 3 vids).

(** ** The activity loop run on its own: consecutive iterations *)

Definition activity_run (isoformat : Z -> string) (aes : list ActEnv) (m : Monitor)
  (st : Store) : Monitor * Store :=
  fold_left (fun ms ae => let '(m', st', _) := activity_tick isoformat ae (fst ms) (snd ms)
                          in (m', st')) aes (m, st).

(** The tables of [st'] extend those of [st] (append-only growth). *)
Definition store_extends (st st' : Store) : Prop :=
  exists ms acts vids, metrics st' = app (metrics st) ms /\
    activities st' = app (activities st) acts /\ videos st' = app (videos st) vids.

(** ** Concrete instances used by the examples *)

Definition iso0 (t : Z) : string := "".

Definition mon0 : Monitor := mkMonitor true ("", "") 0 0 0.

Definition shot_good : ShotEnv :=
  mkShotEnv "20240101_000030" true true (OcrText "  hello ") (Some "QUJD").

Definition ae_at (t : Z) (db : bool) : ActEnv :=
  mkActEnv (mkProbeEnv OtherPlatform None) t t shot_good db.

Definition vt_fail : VidTickEnv :=
  mkVidTickEnv (1801 * sec) (mkVidEnv "19700101_003001" false [] true true 0)
    (1802 * sec).

Definition all_active (l : list ActivityRow) : Prop :=
  Forall (fun r => ar_active_session r = true) l.

Definition shot_broken : ShotEnv :=
  mkShotEnv "20240101_000030" false true (OcrText "") None.

Definition sy0 : SysEnv := mkSysEnv 0 0%float 0%float 0 0 true.

(** Newest first: [a] is not older than [b]. *)
Definition newer_eq (a b : ActivityRow) : Prop :=
  String.leb (ar_timestamp b) (ar_timestamp a) = true.

Example strip_ex : strip "  hello " = "hello".
Proof. reflexivity. Qed.

Example tick_ex :
  let '(m', st', _) := activity_tick iso0 (ae_at (30 * sec) true) mon0 empty_store in
  length (activities st') = 1%nat /\ last_screenshot m' = 30 * sec.
Proof. vm_compute. split; reflexivity. Qed.

(** * Properties *)

(** ** Helper lemmas *)

Lemma window_eqb_true (a b : string * string) : window_eqb a b = true <-> a = b.
Proof.
  destruct a as [a1 a2], b as [b1 b2]; unfold window_eqb; simpl.
  rewrite andb_true_iff, !String.eqb_eq.
  split; [intros [-> ->]; reflexivity | intros H; inversion H; split; reflexivity].
Qed.

Lemma check_activity_fields (w : string * string) (t : Z) (m : Monitor) :
  let m1 := fst (check_activity w t m) in
  monitoring_enabled m1 = monitoring_enabled m /\
  last_screenshot m1 = last_screenshot m /\ last_video m1 = last_video m /\
  (w <> current_window m -> current_window m1 = w /\ last_activity m1 = t) /\
  (w = current_window m -> m1 = m).
Proof.
  unfold check_activity; simpl.
  destruct (window_eqb w (current_window m)) eqn:E; simpl.
  - apply window_eqb_true in E.
    split; [reflexivity | split; [reflexivity | split; [reflexivity | split]]].
    + intros Hne; contradiction.
    + intros _; reflexivity.
  - split; [reflexivity | split; [reflexivity | split; [reflexivity | split]]].
    + intros _; split; reflexivity.
    + intros Heq; subst w.
      rewrite (proj2 (window_eqb_true _ _) eq_refl) in E; discriminate.
Qed.

(** Shape of an enabled activity tick: the monitor after [check_activity],
    possibly with [last_screenshot] set to [now] together with one appended
    row. *)
Lemma activity_tick_shape (isoformat : Z -> string) (ae : ActEnv) (m : Monitor)
  (st : Store) :
  monitoring_enabled m = true ->
  let m1 := fst (check_activity (get_active_window (ae_probe ae)) (ae_t_check ae) m) in
  let now := ae_now ae in
  let due := (now - last_activity m1 <? INACTIVITY_THRESHOLD * sec) &&
             (now - last_screenshot m1 >=? SCREENSHOT_INTERVAL_ACTIVE * sec) &&
             shot_ok (ae_shot ae) && ae_db_ok ae in
  let '(m', st', _) := activity_tick isoformat ae m st in
  (due = true -> exists r, ar_active_session r = true /\
     m' = set_last_screenshot m1 now /\ st' = insert_activity st r) /\
  (due = false -> m' = m1 /\ st' = st).
Proof.
  intros Hen m1 now due.
  unfold activity_tick, due, m1, now; rewrite Hen; cbn [negb].
  destruct (check_activity _ _ m) as [c1 x]; cbn [fst].
  destruct (ae_now ae - last_activity c1 <? INACTIVITY_THRESHOLD * sec);
    cbn [andb]; [| split; [discriminate | intros _; split; reflexivity]].
  destruct (ae_now ae - last_screenshot c1 >=? SCREENSHOT_INTERVAL_ACTIVE * sec);
    cbn [andb]; [| split; [discriminate | intros _; split; reflexivity]].
  unfold shot_ok.
  destruct (capture_screenshot OCR_ENABLED (ae_shot ae)) as [[[p b] o] eff].
  destruct b as [b |]; cbn [truthy andb];
    [| split; [discriminate | intros _; split; reflexivity]].
  destruct (negb (String.eqb b "")); cbn [andb];
    [| split; [discriminate | intros _; split; reflexivity]].
  destruct (ae_db_ok ae).
  - split; [intros _ | discriminate].
    eexists; split; [| split; reflexivity]; reflexivity.
  - split; [discriminate | intros _; split; reflexivity].
Qed.

Lemma system_tick_activities (isoformat : Z -> string) (sy : SysEnv) (m : Monitor)
  (st : Store) :
  let '(_, st', _) := system_tick isoformat sy m st in activities st' = activities st.
Proof.
  unfold system_tick; destruct (monitoring_enabled m), (sy_db_ok sy); reflexivity.
Qed.

Lemma record_video_activities (isoformat : Z -> string) (ve : VidEnv) (st : Store) :
  let '(_, st', _) := record_video isoformat ve st in activities st' = activities st.
Proof.
  unfold record_video.
  destruct (ve_open_ok ve); cbn [negb]; [| reflexivity].
  destruct (write_frames (ve_frames ve)) as [ef ok].
  destruct ok, (ve_release_ok ve), (ve_db_ok ve); reflexivity.
Qed.

Lemma video_tick_activities (isoformat : Z -> string) (vt : VidTickEnv) (m : Monitor)
  (st : Store) :
  let '(_, st', _) := video_tick isoformat vt m st in activities st' = activities st.
Proof.
  unfold video_tick; destruct (monitoring_enabled m); cbn [negb]; [| reflexivity].
  destruct (vt_now vt - last_video m >? VIDEO_INTERVAL * sec); [| reflexivity].
  pose proof (record_video_activities isoformat (vt_rec vt) st) as H.
  destruct (record_video isoformat (vt_rec vt) st) as [[r st'] eff]; exact H.
Qed.


Lemma engine_step_all_active (isoformat : Z -> string) (ev : Event) (m : Monitor)
  (st : Store) :
  all_active (activities st) ->
  all_active (activities (snd (engine_step isoformat ev (m, st)))).
Proof.
  intros Hall; destruct ev as [ae | sy | vt |]; cbn [engine_step].
  - destruct (monitoring_enabled m) eqn:Hen.
    + pose proof (activity_tick_shape isoformat ae m st Hen) as Hs; cbv zeta in Hs.
      destruct (activity_tick isoformat ae m st) as [[m' st'] eff]; cbn [snd].
      match type of Hs with
      | (?d = true -> _) /\ (?d = false -> _) =>
          destruct d; [destruct (proj1 Hs eq_refl) as (r & Hr & _ & ->)
                      | destruct (proj2 Hs eq_refl) as [_ ->]]
      end; [| exact Hall].
      unfold insert_activity, all_active; cbn [activities].
      apply Forall_app; split; [exact Hall | constructor; [exact Hr | constructor]].
    + unfold activity_tick; rewrite Hen; exact Hall.
  - pose proof (system_tick_activities isoformat sy m st) as H.
    destruct (system_tick isoformat sy m st) as [[m' st'] eff]; cbn [snd].
    rewrite H; exact Hall.
  - pose proof (video_tick_activities isoformat vt m st) as H.
    destruct (video_tick isoformat vt m st) as [[m' st'] eff]; cbn [snd].
    rewrite H; exact Hall.
  - exact Hall.
Qed.

Lemma engine_run_all_active (isoformat : Z -> string) (evs : list Event) :
  forall (m : Monitor) (st : Store), all_active (activities st) ->
  all_active (activities (snd (engine_run isoformat evs m st))).
Proof.
  unfold engine_run; induction evs as [| ev evs IH]; intros m st Hall; cbn [fold_left].
  - exact Hall.
  - pose proof (engine_step_all_active isoformat ev m st Hall) as Hs.
    destruct (engine_step isoformat ev (m, st)) as [m' st'] eqn:E.
    apply IH; exact Hs.
Qed.

Lemma filter_all_active (l : list ActivityRow) :
  all_active l -> filter ar_active_session l = l.
Proof.
  induction 1 as [| r l Hr _ IH]; [reflexivity |].
  cbn [filter]; rewrite Hr, IH; reflexivity.
Qed.

(** ** Claims *)

(** C1 (counterexample): a video tick whose capture fails (here
    [mss.mss()]/[cv2.VideoWriter] raise, so [record_video] returns [None])
    still moves [last_video], so the next attempt waits a full
    [VIDEO_INTERVAL]. *)
Lemma video_failure_moves_last_video :
  let '(m', st', _) := video_tick iso0 vt_fail mon0 empty_store in
  video_failed (vt_rec vt_fail) = true /\
  fst (fst (record_video iso0 (vt_rec vt_fail) empty_store)) = None /\
  st' = empty_store /\
  last_video m' = 1802 * sec /\ last_video m' <> last_video mon0.
Proof. vm_compute. repeat split; discriminate. Qed.

(** On every enabled video tick whose interval has elapsed,
    [monitor_videos] assigns [self.last_video] unconditionally, whatever
    [record_video] returned. *)
Theorem video_tick_always_sets_last_video (isoformat : Z -> string)
  (vt : VidTickEnv) (m : Monitor) (st : Store) :
  monitoring_enabled m = true ->
  vt_now vt - last_video m > VIDEO_INTERVAL * sec ->
  let '(m', _, _) := video_tick isoformat vt m st in last_video m' = vt_after vt.
Proof.
  intros Hen Hgt; unfold video_tick; rewrite Hen; cbn [negb].
  replace (vt_now vt - last_video m >? VIDEO_INTERVAL * sec) with true
    by (symmetry; apply Z.gtb_lt; lia).
  destruct (record_video isoformat (vt_rec vt) st) as [[r st'] eff]; reflexivity.
Qed.

(** C2 (counterexample): every gating condition holds and the capture
    succeeds, but the INSERT raises; the outer [except] catches it, no row is
    written and [last_screenshot] stays, although the claim says a row is
    written exactly under the three conditions. *)
Lemma activity_store_failure_no_write :
  let ae := ae_at (30 * sec) false in
  let m1 := fst (check_activity (get_active_window (ae_probe ae)) (ae_t_check ae) mon0) in
  let '(m', st', _) := activity_tick iso0 ae mon0 empty_store in
  (ae_now ae - last_activity m1 <? INACTIVITY_THRESHOLD * sec) = true /\
  (ae_now ae - last_screenshot m1 >=? SCREENSHOT_INTERVAL_ACTIVE * sec) = true /\
  shot_ok (ae_shot ae) = true /\
  activities st' = [] /\ last_screenshot m' = 0.
Proof. vm_compute. repeat split. Qed.

(** C2 (amended): on an enabled activity tick, with [m1] the monitor after
    [check_activity], a row tagged [active_session = true] is appended and
    [last_screenshot] set to [now] exactly when the inactivity time is below
    [INACTIVITY_THRESHOLD], the screenshot interval has elapsed, the capture
    succeeds and the INSERT succeeds; otherwise nothing is written and
    [last_screenshot] is unchanged.  In particular an inactivity time of at
    least [INACTIVITY_THRESHOLD] means no write. *)
Theorem activity_screenshot_gate (isoformat : Z -> string) (ae : ActEnv)
  (m : Monitor) (st : Store) :
  monitoring_enabled m = true ->
  let m1 := fst (check_activity (get_active_window (ae_probe ae)) (ae_t_check ae) m) in
  let now := ae_now ae in
  let due := (now - last_activity m1 <? INACTIVITY_THRESHOLD * sec) &&
             (now - last_screenshot m1 >=? SCREENSHOT_INTERVAL_ACTIVE * sec) &&
             shot_ok (ae_shot ae) && ae_db_ok ae in
  let '(m', st', _) := activity_tick isoformat ae m st in
  (due = true -> exists r, ar_active_session r = true /\
     activities st' = (activities st ++ [r])%list /\ last_screenshot m' = now) /\
  (due = false -> activities st' = activities st /\
     last_screenshot m' = last_screenshot m) /\
  (now - last_activity m1 >= INACTIVITY_THRESHOLD * sec ->
     activities st' = activities st /\ last_screenshot m' = last_screenshot m).
Proof.
  intros Hen m1 now due.
  pose proof (activity_tick_shape isoformat ae m st Hen) as Hs; cbv zeta in Hs.
  pose proof (check_activity_fields (get_active_window (ae_probe ae)) (ae_t_check ae) m)
    as (_ & Hls & _); cbv zeta in Hls.
  destruct (activity_tick isoformat ae m st) as [[m' st'] eff].
  destruct Hs as [Ht Hf].
  assert (Hfalse : due = false ->
            activities st' = activities st /\ last_screenshot m' = last_screenshot m).
  { intros Hd; destruct (Hf Hd) as [-> ->]; split; [reflexivity | exact Hls]. }
  split; [| split; [exact Hfalse |]].
  - intros Hd; destruct (Ht Hd) as (r & Hr & -> & ->).
    exists r; split; [exact Hr | split; reflexivity].
  - intros Hge; apply Hfalse; unfold due.
    replace (now - last_activity m1 <? INACTIVITY_THRESHOLD * sec) with false
      by (symmetry; apply Z.ltb_ge; lia).
    reflexivity.
Qed.

Lemma activity_screenshot_gate_witness :
  monitoring_enabled mon0 = true /\
  (let ae := ae_at (30 * sec) true in
   let '(m', st', _) := activity_tick iso0 ae mon0 empty_store in
   exists r, ar_active_session r = true /\
     activities st' = (activities empty_store ++ [r])%list /\ last_screenshot m' = ae_now ae).
Proof.
  split; [reflexivity |]; cbv zeta.
  pose proof (activity_screenshot_gate iso0 (ae_at (30 * sec) true) mon0 empty_store
                eq_refl) as H; cbv zeta in H.
  destruct (activity_tick iso0 (ae_at (30 * sec) true) mon0 empty_store) as [[m' st'] e].
  apply (proj1 H); vm_compute; reflexivity.
Defined.

(** C3: on an enabled activity tick observing window identity [w],
    [current_window] and [last_activity] both change (to [w] and the
    [datetime.now()] of [check_activity]) when [w] differs from the stored
    identity, and both stay as they were when it is equal. *)
Theorem activity_tick_window_transition (isoformat : Z -> string) (ae : ActEnv)
  (m : Monitor) (st : Store) :
  monitoring_enabled m = true ->
  let w := get_active_window (ae_probe ae) in
  let '(m', _, _) := activity_tick isoformat ae m st in
  (w <> current_window m ->
     current_window m' = w /\ last_activity m' = ae_t_check ae) /\
  (w = current_window m ->
     current_window m' = current_window m /\ last_activity m' = last_activity m).
Proof.
  intros Hen w.
  pose proof (activity_tick_shape isoformat ae m st Hen) as Hs; cbv zeta in Hs.
  pose proof (check_activity_fields w (ae_t_check ae) m) as (_ & _ & _ & Hne & Heq).
  cbv zeta in Hne, Heq.
  set (m1 := fst (check_activity w (ae_t_check ae) m)) in *.
  assert (Hm : let '(m', _, _) := activity_tick isoformat ae m st in
               current_window m' = current_window m1 /\
               last_activity m' = last_activity m1).
  { destruct (activity_tick isoformat ae m st) as [[m' st'] eff].
    destruct Hs as [Ht Hf].
    match type of Ht with
    | ?d = true -> _ =>
        destruct d; [destruct (Ht eq_refl) as (r & _ & -> & _)
                    | destruct (Hf eq_refl) as [-> _]]
    end; split; reflexivity. }
  destruct (activity_tick isoformat ae m st) as [[m' st'] eff].
  destruct Hm as [Hw Hl]; rewrite Hw, Hl.
  split.
  - intros H; exact (Hne H).
  - intros H; rewrite (Heq H); split; reflexivity.
Qed.

Lemma activity_tick_window_transition_witness :
  monitoring_enabled mon0 = true /\
  (let ae := ae_at (5 * sec) true in
   let '(m', _, _) := activity_tick iso0 ae mon0 empty_store in
   current_window m' = ("Terminal", "bash") /\ last_activity m' = 5 * sec).
Proof.
  split; [reflexivity |]; cbv zeta.
  pose proof (activity_tick_window_transition iso0 (ae_at (5 * sec) true) mon0
                empty_store eq_refl) as H; cbv zeta in H.
  destruct (activity_tick iso0 (ae_at (5 * sec) true) mon0 empty_store) as [[m' st'] e].
  apply (proj1 H); vm_compute; discriminate.
Defined.

(** C4: an activity tick on which the screenshot capture fails (no truthy
    thumbnail) writes nothing to the store and leaves [last_screenshot]
    unchanged. *)
Theorem activity_capture_failure_keeps_state (isoformat : Z -> string)
  (ae : ActEnv) (m : Monitor) (st : Store) :
  shot_ok (ae_shot ae) = false ->
  let '(m', st', _) := activity_tick isoformat ae m st in
  st' = st /\ last_screenshot m' = last_screenshot m.
Proof.
  intros Hshot.
  destruct (monitoring_enabled m) eqn:Hen.
  - pose proof (activity_tick_shape isoformat ae m st Hen) as Hs; cbv zeta in Hs.
    pose proof (check_activity_fields (get_active_window (ae_probe ae)) (ae_t_check ae) m)
      as (_ & Hls & _); cbv zeta in Hls.
    rewrite Hshot, andb_false_r, andb_false_l in Hs.
    destruct (activity_tick isoformat ae m st) as [[m' st'] eff].
    destruct (proj2 Hs eq_refl) as [-> ->]; split; [reflexivity | exact Hls].
  - unfold activity_tick; rewrite Hen; split; reflexivity.
Qed.


Lemma activity_capture_failure_keeps_state_witness :
  shot_ok shot_broken = false /\
  (let ae := mkActEnv (mkProbeEnv OtherPlatform None) (30 * sec) (30 * sec)
               shot_broken true in
   let '(m', st', _) := activity_tick iso0 ae mon0 empty_store in
   st' = empty_store /\ last_screenshot m' = last_screenshot mon0).
Proof.
  split; [reflexivity |].
  apply activity_capture_failure_keeps_state; reflexivity.
Defined.

(** C6: a tick of any of the three loops that reads [monitoring_enabled] as
    [False] sleeps one second and changes neither the monitor state nor the
    store; it performs nothing else. *)
Theorem loops_disabled_noop (isoformat : Z -> string) (ae : ActEnv) (sy : SysEnv)
  (vt : VidTickEnv) (m : Monitor) (st : Store) :
  monitoring_enabled m = false ->
  activity_tick isoformat ae m st = (m, st, [ESleepMs 1000]) /\
  system_tick isoformat sy m st = (m, st, [ESleepMs 1000]) /\
  video_tick isoformat vt m st = (m, st, [ESleepMs 1000]).
Proof.
  intros Hoff; unfold activity_tick, system_tick, video_tick; rewrite Hoff.
  split; [| split]; reflexivity.
Qed.


Lemma loops_disabled_noop_witness :
  let m := toggle_monitoring mon0 in
  monitoring_enabled m = false /\
  activity_tick iso0 (ae_at 0 true) m empty_store = (m, empty_store, [ESleepMs 1000]) /\
  system_tick iso0 sy0 m empty_store = (m, empty_store, [ESleepMs 1000]) /\
  video_tick iso0 vt_fail m empty_store = (m, empty_store, [ESleepMs 1000]).
Proof.
  cbv zeta; split; [reflexivity |].
  apply loops_disabled_noop; reflexivity.
Defined.

(** C10: from an empty database, every interleaving of the three loops and
    toggles leaves only activity rows with [active_session = true], so the
    [WHERE active_session = 1] filter of the history query keeps all of them. *)
Theorem engine_activities_all_active (isoformat : Z -> string) (evs : list Event)
  (m : Monitor) :
  let st := snd (engine_run isoformat evs m empty_store) in
  Forall (fun r => ar_active_session r = true) (activities st) /\
  filter ar_active_session (activities st) = activities st.
Proof.
  cbv zeta.
  pose proof (engine_run_all_active isoformat evs m empty_store (Forall_nil _)) as H.
  split; [exact H | apply filter_all_active; exact H].
Qed.

Lemma write_frames_ok (fs : list bool) :
  snd (write_frames fs) = negb (existsb negb fs).
Proof.
  induction fs as [| f fs IH]; [reflexivity |].
  destruct f; cbn [write_frames existsb negb orb]; [| reflexivity].
  destruct (write_frames fs) as [e ok]; exact IH.
Qed.

(** C5: [record_video] leaves the database as it is when opening the
    writer, a frame or the release raises; the only change it ever makes is
    one appended [videos] row, and then its trace ends with the release
    followed by the INSERT. *)
Theorem record_video_row_after_release (isoformat : Z -> string) (ve : VidEnv)
  (st : Store) :
  let '(r, st', eff) := record_video isoformat ve st in
  (video_failed ve = true -> st' = st /\ r = None) /\
  (st' = st \/
   (video_failed ve = false /\ ve_db_ok ve = true /\ r = Some (video_path ve) /\
    st' = insert_video st (mkVideoRow (isoformat (ve_insert_now ve)) VIDEO_DURATION
                             (video_path ve)) /\
    exists pre, eff = (pre ++ [ERelease; EDbWrite "videos"])%list)).
Proof.
  unfold record_video, video_failed.
  destruct (ve_open_ok ve); cbn [negb orb];
    [| split; [intros _; split; reflexivity | left; reflexivity]].
  pose proof (write_frames_ok (ve_frames ve)) as Hw.
  destruct (write_frames (ve_frames ve)) as [ef ok]; cbn [snd] in Hw; subst ok.
  destruct (existsb negb (ve_frames ve)); cbn [negb orb];
    [split; [intros _; split; reflexivity | left; reflexivity] |].
  destruct (ve_release_ok ve); cbn [negb orb];
    [| split; [intros _; split; reflexivity | left; reflexivity]].
  destruct (ve_db_ok ve); cbn [negb];
    [| split; [discriminate | left; reflexivity]].
  split; [discriminate |].
  right; split; [reflexivity | split; [reflexivity | split; [reflexivity | split]]].
  - reflexivity.
  - exists (EOpenWriter (video_path ve) :: ef); reflexivity.
Qed.

Lemma record_video_row_after_release_witness :
  let ve := mkVidEnv "19700101_003001" true [true; false] true true 0 in
  video_failed ve = true /\
  (let '(r, st', _) := record_video iso0 ve empty_store in st' = empty_store /\ r = None).
Proof.
  cbv zeta; split; [reflexivity |].
  pose proof (record_video_row_after_release iso0
                (mkVidEnv "19700101_003001" true [true; false] true true 0)
                empty_store) as H.
  destruct (record_video iso0 _ empty_store) as [[r st'] e].
  apply (proj1 H); reflexivity.
Defined.

(** C8: [get_active_window] always returns a pair of strings (its type), and
    when the Windows API call raises it returns [("Unknown", "Unknown")]. *)
Theorem get_active_window_sentinel (pe : ProbeEnv) :
  probe_failed pe = true -> get_active_window pe = ("Unknown", "Unknown").
Proof.
  unfold probe_failed, get_active_window.
  destruct (pe_platform pe), (pe_win32 pe); first [reflexivity | discriminate].
Qed.

Lemma get_active_window_sentinel_witness :
  probe_failed (mkProbeEnv Windows None) = true /\
  get_active_window (mkProbeEnv Windows None) = ("Unknown", "Unknown").
Proof.
  split; [reflexivity | apply get_active_window_sentinel; reflexivity].
Defined.

(** C9: when OCR is disabled or raises, [capture_screenshot] still saves the
    artifact and returns the path and the thumbnail, with [""] as the text. *)
Theorem capture_ocr_best_effort (ocr_enabled : bool) (se : ShotEnv) (b : string) :
  (ocr_enabled = false \/ se_ocr se = OcrRaises) ->
  se_grab_ok se = true -> se_save_ok se = true -> se_thumb se = Some b ->
  let '((path, b64_img, ocr_text), eff) := capture_screenshot ocr_enabled se in
  path = Some (screenshot_path se) /\ b64_img = Some b /\ ocr_text = "" /\
  In (ESaveFile (screenshot_path se)) eff.
Proof.
  intros Hocr Hg Hs Ht; unfold capture_screenshot; rewrite Hg, Hs; cbn [negb].
  assert (Ho : fst (process_ocr ocr_enabled (se_ocr se)) = "").
  { unfold process_ocr; destruct Hocr as [-> | ->]; [| destruct ocr_enabled]; reflexivity. }
  destruct (process_ocr ocr_enabled (se_ocr se)) as [t eo]; cbn [fst] in Ho; subst t.
  rewrite Ht.
  split; [reflexivity | split; [reflexivity | split; [reflexivity |]]].
  right; left; reflexivity.
Qed.

Lemma capture_ocr_best_effort_witness :
  let se := mkShotEnv "20240101_000030" true true OcrRaises (Some "QUJD") in
  (OCR_ENABLED = false \/ se_ocr se = OcrRaises) /\
  (let '((path, b64_img, ocr_text), eff) := capture_screenshot OCR_ENABLED se in
   path = Some (screenshot_path se) /\ b64_img = Some "QUJD" /\ ocr_text = "" /\
   In (ESaveFile (screenshot_path se)) eff).
Proof.
  cbv zeta; split; [right; reflexivity |].
  apply capture_ocr_best_effort; first [right; reflexivity | reflexivity].
Defined.


Lemma insert_desc_perm (r : ActivityRow) (l : list ActivityRow) :
  Permutation (insert_desc r l) (r :: l).
Proof.
  induction l as [| x l IH]; cbn [insert_desc]; [reflexivity |].
  destruct (String.leb (ar_timestamp x) (ar_timestamp r)); [reflexivity |].
  transitivity (x :: r :: l); [constructor; exact IH | constructor].
Qed.

Lemma sort_desc_perm (l : list ActivityRow) : Permutation (sort_desc l) l.
Proof.
  induction l as [| x l IH]; cbn [sort_desc fold_right]; [reflexivity |].
  rewrite insert_desc_perm; constructor; exact IH.
Qed.

Lemma insert_desc_hd (x r : ActivityRow) (l : list ActivityRow) :
  HdRel newer_eq x l -> newer_eq x r -> HdRel newer_eq x (insert_desc r l).
Proof.
  intros Hx Hr; destruct l as [| y l]; cbn [insert_desc]; [constructor; exact Hr |].
  destruct (String.leb (ar_timestamp y) (ar_timestamp r)); constructor;
    [exact Hr | inversion Hx; assumption].
Qed.

Lemma insert_desc_sorted (r : ActivityRow) (l : list ActivityRow) :
  Sorted newer_eq l -> Sorted newer_eq (insert_desc r l).
Proof.
  induction l as [| x l IH]; intros Hs; cbn [insert_desc].
  - constructor; constructor.
  - destruct (String.leb (ar_timestamp x) (ar_timestamp r)) eqn:E.
    + constructor; [exact Hs | constructor; exact E].
    + inversion Hs as [| ? ? Hl Hhd]; subst.
      constructor; [apply IH; exact Hl |].
      apply insert_desc_hd; [exact Hhd |].
      unfold newer_eq; destruct (String.leb_total (ar_timestamp x) (ar_timestamp r))
        as [H | H]; [rewrite H in E; discriminate | exact H].
Qed.

Lemma sort_desc_sorted (l : list ActivityRow) : Sorted newer_eq (sort_desc l).
Proof.
  induction l as [| x l IH]; cbn [sort_desc fold_right]; [constructor |].
  apply insert_desc_sorted; exact IH.
Qed.

Lemma sorted_app_l {A} (R : A -> A -> Prop) (l1 l2 : list A) :
  Sorted R (l1 ++ l2) -> Sorted R l1.
Proof.
  induction l1 as [| x l1 IH]; intros Hs; [constructor |].
  cbn [app] in Hs; inversion Hs as [| ? ? Hl Hhd]; subst.
  constructor; [apply IH; exact Hl |].
  destruct l1 as [| y l1]; constructor; inversion Hhd; assumption.
Qed.

(** C7: [get_activity_history] projects the rows of the SELECT; those rows
    all have [active_session = true], are a newest-first prefix, of length
    [min 10 n], of a sorted arrangement of the [n] active rows; with no
    activity row stored the answer is the empty list. *)
Theorem get_activity_history_spec (st : Store) :
  let sel := select_activities st in
  get_activity_history st = map to_item sel /\
  Forall (fun r => ar_active_session r = true) sel /\
  Sorted newer_eq sel /\
  (exists rest, Permutation (filter ar_active_session (activities st)) (sel ++ rest) /\
                Sorted newer_eq (sel ++ rest)) /\
  length sel = Nat.min 10 (length (filter ar_active_session (activities st))) /\
  (activities st = [] -> get_activity_history st = []).
Proof.
  cbv zeta; unfold select_activities.
  set (act := filter ar_active_session (activities st)).
  pose proof (sort_desc_perm act) as Hp.
  pose proof (sort_desc_sorted act) as Hs.
  pose proof (firstn_skipn 10 (sort_desc act)) as Hfs.
  split; [reflexivity |].
  split.
  { apply Forall_forall; intros r Hr.
    assert (Hin : In r act).
    { apply (Permutation_in _ Hp); rewrite <- Hfs; apply in_or_app; left; exact Hr. }
    apply filter_In in Hin; apply Hin. }
  split; [apply (sorted_app_l _ _ (skipn 10 (sort_desc act))); rewrite Hfs; exact Hs |].
  split; [exists (skipn 10 (sort_desc act)); rewrite Hfs; split;
          [symmetry; exact Hp | exact Hs] |].
  split; [rewrite length_firstn, (Permutation_length Hp); reflexivity |].
  intros He; unfold get_activity_history, select_activities; rewrite He; reflexivity.
Qed.

Lemma get_activity_history_spec_witness :
  activities empty_store = [] /\ get_activity_history empty_store = [].
Proof.
  split; [reflexivity |].
  exact (proj2 (proj2 (proj2 (proj2 (proj2 (get_activity_history_spec empty_store)))))
           eq_refl).
Defined.

(** ** Further properties of the code *)



(** Two ["toggle"] requests in a row restore the monitor. *)
Theorem control_toggle_twice (m : Monitor) :
  fst (control_monitoring (fst (control_monitoring m (Some "toggle"))) (Some "toggle")) = m.
Proof. destruct m as [[] w la ls lv]; reflexivity. Qed.

(** Outcome of one [monitor_system] iteration. *)
Lemma system_tick_cases (isoformat : Z -> string) (sy : SysEnv) (m : Monitor)
  (st : Store) :
  let '(m', st', _) := system_tick isoformat sy m st in
  m' = m /\
  st' = (if monitoring_enabled m && sy_db_ok sy
         then insert_metric st (mkMetricRow (isoformat (sy_now sy)) (sy_cpu sy)
                 (sy_mem sy) (sy_bytes_sent sy) (sy_bytes_recv sy))
         else st).
Proof.
  unfold system_tick; destruct (monitoring_enabled m), (sy_db_ok sy);
    split; reflexivity.
Qed.

(** [monitor_videos]: while at most [VIDEO_INTERVAL] seconds have passed
    since [last_video], an iteration only sleeps one second. *)
Theorem video_tick_before_interval (isoformat : Z -> string) (vt : VidTickEnv)
  (m : Monitor) (st : Store) :
  vt_now vt - last_video m <= VIDEO_INTERVAL * sec ->
  video_tick isoformat vt m st = (m, st, [ESleepMs 1000]).
Proof.
  intros Hle; unfold video_tick.
  destruct (monitoring_enabled m); [| reflexivity]; cbn [negb].
  replace (vt_now vt - last_video m >? VIDEO_INTERVAL * sec) with false
    by (symmetry; rewrite Z.gtb_ltb; apply Z.ltb_ge; lia).
  reflexivity.
Qed.

Lemma video_tick_before_interval_witness :
  vt_now (mkVidTickEnv (1800 * sec) (vt_rec vt_fail) 0) - last_video mon0
    <= VIDEO_INTERVAL * sec /\
  video_tick iso0 (mkVidTickEnv (1800 * sec) (vt_rec vt_fail) 0) mon0 empty_store
    = (mon0, empty_store, [ESleepMs 1000]).
Proof.
  split; [vm_compute; discriminate |].
  apply video_tick_before_interval; vm_compute; discriminate.
Defined.

(** Outcome of [record_video] on the three tables. *)
Lemma record_video_tables (isoformat : Z -> string) (ve : VidEnv) (st : Store) :
  let '(r, st', _) := record_video isoformat ve st in
  metrics st' = metrics st /\ activities st' = activities st /\
  ((r = None /\ videos st' = videos st) \/
   (r = Some (video_path ve) /\
    videos st' = (videos st ++ [mkVideoRow (isoformat (ve_insert_now ve))
                                 VIDEO_DURATION (video_path ve)])%list)).
Proof.
  unfold record_video.
  destruct (ve_open_ok ve); cbn [negb];
    [| split; [reflexivity | split; [reflexivity | left; split; reflexivity]]].
  destruct (write_frames (ve_frames ve)) as [ef ok].
  destruct ok, (ve_release_ok ve), (ve_db_ok ve); cbn [negb];
    split; try reflexivity; split; try reflexivity;
    first [right; split; reflexivity | left; split; reflexivity].
Qed.

(** [capture_screenshot] returns a thumbnail only after grabbing the screen
    and saving the full-size artifact at the path it returns; without a
    thumbnail it returns [(None, None, "")]. *)
Theorem capture_thumbnail_implies_saved (ocr_enabled : bool) (se : ShotEnv) :
  let '((path, b64_img, ocr_text), eff) := capture_screenshot ocr_enabled se in
  (b64_img <> None -> path = Some (screenshot_path se) /\
     In EGrabScreen eff /\ In (ESaveFile (screenshot_path se)) eff) /\
  (b64_img = None -> path = None /\ ocr_text = "").
Proof.
  unfold capture_screenshot.
  destruct (se_grab_ok se); cbn [negb];
    [| split; [intros H; contradiction H; reflexivity | intros _; split; reflexivity]].
  destruct (se_save_ok se); cbn [negb];
    [| split; [intros H; contradiction H; reflexivity | intros _; split; reflexivity]].
  destruct (process_ocr ocr_enabled (se_ocr se)) as [t eo].
  destruct (se_thumb se) as [b |].
  - split; [intros _ | discriminate].
    split; [reflexivity | split; [left; reflexivity | right; left; reflexivity]].
  - split; [intros H; contradiction H; reflexivity | intros _; split; reflexivity].
Qed.

Lemma activity_tick_enabled_same (isoformat : Z -> string) (ae : ActEnv) (m : Monitor)
  (st : Store) :
  let '(m', _, _) := activity_tick isoformat ae m st in
  monitoring_enabled m' = monitoring_enabled m.
Proof.
  destruct (monitoring_enabled m) eqn:Hen.
  - pose proof (activity_tick_shape isoformat ae m st Hen) as Hs; cbv zeta in Hs.
    pose proof (check_activity_fields (get_active_window (ae_probe ae)) (ae_t_check ae) m)
      as (He & _); cbv zeta in He.
    destruct (activity_tick isoformat ae m st) as [[m' st'] eff].
    destruct Hs as [Ht Hf].
    match type of Ht with
    | ?d = true -> _ =>
        destruct d; [destruct (Ht eq_refl) as (r & _ & -> & _)
                    | destruct (Hf eq_refl) as [-> _]]
    end; rewrite <- Hen; exact He.
  - unfold activity_tick; rewrite Hen; cbn; exact Hen.
Qed.

Lemma video_tick_enabled_same (isoformat : Z -> string) (vt : VidTickEnv) (m : Monitor)
  (st : Store) :
  let '(m', _, _) := video_tick isoformat vt m st in
  monitoring_enabled m' = monitoring_enabled m.
Proof.
  unfold video_tick; destruct (monitoring_enabled m) eqn:Hen; cbn [negb];
    [| rewrite Hen; reflexivity].
  destruct (vt_now vt - last_video m >? VIDEO_INTERVAL * sec); [| exact Hen].
  destruct (record_video isoformat (vt_rec vt) st) as [[r st'] eff]; exact Hen.
Qed.

(** Only the [/control] toggle changes [monitoring_enabled]: after any
    interleaving of loop iterations and toggles the flag is the initial one
    flipped once per toggle. *)
Theorem engine_flag_only_toggles (isoformat : Z -> string) (evs : list Event) :
  forall (m : Monitor) (st : Store),
  monitoring_enabled (fst (engine_run isoformat evs m st)) =
  xorb (monitoring_enabled m)
    (Nat.odd (length (filter (fun ev => match ev with EvToggle => true | _ => false end)
                        evs))).
Proof.
  unfold engine_run; induction evs as [| ev evs IH]; intros m st; cbn [fold_left].
  - rewrite xorb_false_r; reflexivity.
  - assert (Hstep : monitoring_enabled (fst (engine_step isoformat ev (m, st))) =
                    xorb (monitoring_enabled m)
                      (match ev with EvToggle => true | _ => false end)).
    { destruct ev as [ae | sy | vt |]; cbn [engine_step].
      - pose proof (activity_tick_enabled_same isoformat ae m st) as H.
        destruct (activity_tick isoformat ae m st) as [[m' st'] e].
        rewrite xorb_false_r; exact H.
      - pose proof (system_tick_cases isoformat sy m st) as H.
        destruct (system_tick isoformat sy m st) as [[m' st'] e].
        destruct H as [-> _]; rewrite xorb_false_r; reflexivity.
      - pose proof (video_tick_enabled_same isoformat vt m st) as H.
        destruct (video_tick isoformat vt m st) as [[m' st'] e].
        rewrite xorb_false_r; exact H.
      - rewrite xorb_true_r; reflexivity. }
    destruct (engine_step isoformat ev (m, st)) as [m1 st1] eqn:E.
    rewrite IH; cbn [fst] in Hstep; rewrite Hstep, xorb_assoc.
    f_equal.
    destruct ev; cbn [filter length]; try reflexivity.
    rewrite Nat.odd_succ, <- Nat.negb_odd; destruct (Nat.odd _); reflexivity.
Qed.

Lemma store_extends_refl (st : Store) : store_extends st st.
Proof. exists [], [], []; rewrite !app_nil_r; repeat split. Qed.

Lemma store_extends_trans (a b c : Store) :
  store_extends a b -> store_extends b c -> store_extends a c.
Proof.
  intros (m1 & a1 & v1 & H1 & H2 & H3) (m2 & a2 & v2 & H4 & H5 & H6).
  exists (m1 ++ m2)%list, (a1 ++ a2)%list, (v1 ++ v2)%list.
  rewrite H4, H5, H6, H1, H2, H3, !app_assoc; repeat split.
Qed.

Lemma engine_step_extends (isoformat : Z -> string) (ev : Event) (m : Monitor)
  (st : Store) : store_extends st (snd (engine_step isoformat ev (m, st))).
Proof.
  destruct ev as [ae | sy | vt |]; cbn [engine_step].
  - destruct (monitoring_enabled m) eqn:Hen.
    + pose proof (activity_tick_shape isoformat ae m st Hen) as Hs; cbv zeta in Hs.
      destruct (activity_tick isoformat ae m st) as [[m' st'] eff]; cbn [snd].
      destruct Hs as [Ht Hf].
      match type of Ht with
      | ?d = true -> _ =>
          destruct d; [destruct (Ht eq_refl) as (r & _ & _ & ->)
                      | destruct (Hf eq_refl) as [_ ->]; apply store_extends_refl]
      end.
      exists [], [r], []; rewrite !app_nil_r; repeat split.
    + unfold activity_tick; rewrite Hen; apply store_extends_refl.
  - pose proof (system_tick_cases isoformat sy m st) as H.
    destruct (system_tick isoformat sy m st) as [[m' st'] e]; cbn [snd].
    destruct H as [_ ->].
    destruct (monitoring_enabled m && sy_db_ok sy); [| apply store_extends_refl].
    exists [mkMetricRow (isoformat (sy_now sy)) (sy_cpu sy) (sy_mem sy)
              (sy_bytes_sent sy) (sy_bytes_recv sy)], [], [].
    cbn; rewrite !app_nil_r; repeat split.
  - unfold video_tick.
    destruct (monitoring_enabled m); cbn [negb]; [| apply store_extends_refl].
    destruct (vt_now vt - last_video m >? VIDEO_INTERVAL * sec); [| apply store_extends_refl].
    pose proof (record_video_tables isoformat (vt_rec vt) st) as H.
    destruct (record_video isoformat (vt_rec vt) st) as [[r st'] e]; cbn [snd].
    destruct H as (Hm & Ha & [[_ Hv] | [_ Hv]]).
    + exists [], [], []; rewrite Hm, Ha, Hv, !app_nil_r; repeat split.
    + exists [], [], [mkVideoRow (isoformat (ve_insert_now (vt_rec vt))) VIDEO_DURATION
                           (video_path (vt_rec vt))].
      rewrite Hm, Ha, Hv, !app_nil_r; repeat split.
  - apply store_extends_refl.
Qed.

(** The database only grows by appending: after any interleaving of loop
    iterations and toggles, every table of the initial database is a prefix
    of the same table at the end. *)
Theorem engine_append_only (isoformat : Z -> string) (evs : list Event) :
  forall (m : Monitor) (st : Store),
  store_extends st (snd (engine_run isoformat evs m st)).
Proof.
  unfold engine_run; induction evs as [| ev evs IH]; intros m st; cbn [fold_left].
  - apply store_extends_refl.
  - pose proof (engine_step_extends isoformat ev m st) as Hs.
    destruct (engine_step isoformat ev (m, st)) as [m1 st1] eqn:E.
    eapply store_extends_trans; [exact Hs | apply IH].
Qed.

(** Two consecutive activity-loop iterations: when the first writes a row,
    the second writes none if it reads the clock less than
    [SCREENSHOT_INTERVAL_ACTIVE] seconds later. *)
Theorem screenshot_min_spacing (isoformat : Z -> string) (ae1 ae2 : ActEnv)
  (m : Monitor) (st : Store) :
  let '(m1, st1, _) := activity_tick isoformat ae1 m st in
  activities st1 <> activities st ->
  ae_now ae2 - ae_now ae1 < SCREENSHOT_INTERVAL_ACTIVE * sec ->
  let '(_, st2, _) := activity_tick isoformat ae2 m1 st1 in
  activities st2 = activities st1.
Proof.
  destruct (monitoring_enabled m) eqn:Hen.
  2:{ unfold activity_tick at 1; rewrite Hen; cbn; intros H; contradiction H; reflexivity. }
  pose proof (activity_tick_shape isoformat ae1 m st Hen) as Hs; cbv zeta in Hs.
  pose proof (activity_tick_enabled_same isoformat ae1 m st) as He.
  destruct (activity_tick isoformat ae1 m st) as [[m1 st1] eff1].
  intros Hw Hlt; destruct Hs as [Ht Hf].
  match type of Ht with
  | ?d = true -> _ =>
      destruct d; [destruct (Ht eq_refl) as (r & _ & Hm1 & _)
                  | destruct (Hf eq_refl) as [_ ->]; contradiction Hw; reflexivity]
  end.
  assert (Hls : last_screenshot m1 = ae_now ae1) by (rewrite Hm1; reflexivity).
  rewrite Hen in He.
  pose proof (activity_tick_shape isoformat ae2 m1 st1 He) as G; cbv zeta in G.
  pose proof (check_activity_fields (get_active_window (ae_probe ae2)) (ae_t_check ae2) m1)
    as (_ & Hls2 & _); cbv zeta in Hls2.
  destruct (activity_tick isoformat ae2 m1 st1) as [[m2 st2] eff2].
  destruct G as [_ Hf2].
  refine (f_equal activities (proj2 (Hf2 _))).
  rewrite Hls2, Hls.
  replace (ae_now ae2 - ae_now ae1 >=? SCREENSHOT_INTERVAL_ACTIVE * sec) with false
    by (symmetry; rewrite Z.geb_leb; apply Z.leb_gt; lia).
  rewrite andb_false_r, !andb_false_l; reflexivity.
Qed.


(** [record_video] changes only the [videos] table: either not at all, or
    by one row holding the recorded file's path and [VIDEO_DURATION]; the
    returned path is [Some] exactly when that row was added. *)
Theorem record_video_only_videos (isoformat : Z -> string) (ve : VidEnv) (st : Store) :
  let '(r, st', _) := record_video isoformat ve st in
  metrics st' = metrics st /\ activities st' = activities st /\
  ((r = None /\ videos st' = videos st) \/
   (r = Some (video_path ve) /\
    videos st' = (videos st ++ [mkVideoRow (isoformat (ve_insert_now ve))
                                 VIDEO_DURATION (video_path ve)])%list)).
Proof. exact (record_video_tables isoformat ve st). Qed.

Lemma activity_tick_idle_noop (isoformat : Z -> string) (ae : ActEnv) (m : Monitor)
  (st : Store) :
  get_active_window (ae_probe ae) = current_window m ->
  last_activity m + INACTIVITY_THRESHOLD * sec <= ae_now ae ->
  let '(m', st', _) := activity_tick isoformat ae m st in m' = m /\ st' = st.
Proof.
  intros Hw Hidle.
  destruct (monitoring_enabled m) eqn:Hen.
  - pose proof (activity_tick_shape isoformat ae m st Hen) as Hs; cbv zeta in Hs.
    pose proof (check_activity_fields (get_active_window (ae_probe ae)) (ae_t_check ae) m)
      as (_ & _ & _ & _ & Heq); cbv zeta in Heq.
    rewrite (Heq Hw) in Hs.
    replace (ae_now ae - last_activity m <? INACTIVITY_THRESHOLD * sec) with false in Hs
      by (symmetry; apply Z.ltb_ge; lia).
    rewrite !andb_false_l in Hs.
    destruct (activity_tick isoformat ae m st) as [[m' st'] eff].
    exact (proj2 Hs eq_refl).
  - unfold activity_tick; rewrite Hen; split; reflexivity.
Qed.

(** With a probe that keeps reporting the stored window identity (the
    degraded probe), iterations of the activity loop held at least
    [INACTIVITY_THRESHOLD] seconds after [last_activity] change nothing:
    neither the monitor state nor the database. *)
Theorem activity_run_idle_noop (isoformat : Z -> string) (aes : list ActEnv) :
  forall (m : Monitor) (st : Store),
  Forall (fun ae => get_active_window (ae_probe ae) = current_window m /\
                    last_activity m + INACTIVITY_THRESHOLD * sec <= ae_now ae) aes ->
  activity_run isoformat aes m st = (m, st).
Proof.
  unfold activity_run; induction aes as [| ae aes IH]; intros m st Hall; cbn [fold_left].
  - reflexivity.
  - inversion Hall as [| ? ? [Hw Hidle] Hrest]; subst.
    pose proof (activity_tick_idle_noop isoformat ae m st Hw Hidle) as H.
    cbn [fst snd].
    destruct (activity_tick isoformat ae m st) as [[m' st'] eff].
    destruct H as [-> ->]; apply IH; exact Hrest.
Qed.

Lemma activity_run_idle_noop_witness :
  let m := mkMonitor true ("Terminal", "bash") 0 0 0 in
  let aes := [ae_at (60 * sec) true; ae_at (61 * sec) true; ae_at (100 * sec) true] in
  Forall (fun ae => get_active_window (ae_probe ae) = current_window m /\
                    last_activity m + INACTIVITY_THRESHOLD * sec <= ae_now ae) aes /\
  activity_run iso0 aes m empty_store = (m, empty_store).
Proof.
  cbv zeta.
  assert (H : Forall (fun ae => get_active_window (ae_probe ae) =
                         current_window (mkMonitor true ("Terminal", "bash") 0 0 0) /\
                       last_activity (mkMonitor true ("Terminal", "bash") 0 0 0)
                         + INACTIVITY_THRESHOLD * sec <= ae_now ae)
                [ae_at (60 * sec) true; ae_at (61 * sec) true; ae_at (100 * sec) true]).
  { repeat constructor; vm_compute; discriminate. }
  split; [exact H | apply activity_run_idle_noop; exact H].
Defined.

(** A row written by the activity loop records the window identity the probe
    reported on that same iteration, the iteration's time, and the thumbnail
    and OCR text [capture_screenshot] returned. *)
Theorem activity_row_contents (isoformat : Z -> string) (ae : ActEnv) (m : Monitor)
  (st : Store) :
  let '(_, st', _) := activity_tick isoformat ae m st in
  activities st' <> activities st ->
  exists path b64_img ocr_text eff,
    capture_screenshot OCR_ENABLED (ae_shot ae) = ((path, Some b64_img, ocr_text), eff) /\
    activities st' = (activities st ++
      [mkActivityRow (isoformat (ae_now ae)) (fst (get_active_window (ae_probe ae)))
         (snd (get_active_window (ae_probe ae))) b64_img ocr_text true])%list.
Proof.
  destruct (monitoring_enabled m) eqn:Hen.
  2:{ unfold activity_tick; rewrite Hen; intros H; contradiction H; reflexivity. }
  pose proof (check_activity_fields (get_active_window (ae_probe ae)) (ae_t_check ae) m)
    as (_ & _ & _ & Hne & Heq); cbv zeta in Hne, Heq.
  assert (Hcw : current_window (fst (check_activity (get_active_window (ae_probe ae))
                                       (ae_t_check ae) m)) = get_active_window (ae_probe ae)).
  { destruct (window_eqb (get_active_window (ae_probe ae)) (current_window m)) eqn:E.
    - apply window_eqb_true in E; rewrite (Heq E); symmetry; exact E.
    - apply Hne; intros E'; rewrite E', (proj2 (window_eqb_true _ _) eq_refl) in E;
        discriminate. }
  unfold activity_tick; rewrite Hen; cbn [negb].
  destruct (check_activity (get_active_window (ae_probe ae)) (ae_t_check ae) m) as [c1 x].
  cbn [fst] in Hcw.
  destruct (ae_now ae - last_activity c1 <? INACTIVITY_THRESHOLD * sec);
    [| intros H; contradiction H; reflexivity].
  destruct (ae_now ae - last_screenshot c1 >=? SCREENSHOT_INTERVAL_ACTIVE * sec);
    [| intros H; contradiction H; reflexivity].
  destruct (capture_screenshot OCR_ENABLED (ae_shot ae)) as [[[p b] o] eff].
  destruct b as [b |]; [| intros H; contradiction H; reflexivity].
  cbn [truthy].
  destruct (negb (String.eqb b "")); [| intros H; contradiction H; reflexivity].
  destruct (ae_db_ok ae); [| intros H; contradiction H; reflexivity].
  intros _; exists p, b, o, eff; split; [reflexivity |].
  unfold insert_activity, activity_row; cbn [activities]; rewrite Hcw; reflexivity.
Qed.

Lemma activity_row_contents_witness :
  let '(_, st', _) := activity_tick iso0 (ae_at (30 * sec) true) mon0 empty_store in
  activities st' <> activities empty_store /\
  exists path b64_img ocr_text eff,
    capture_screenshot OCR_ENABLED (ae_shot (ae_at (30 * sec) true)) =
      ((path, Some b64_img, ocr_text), eff) /\
    activities st' = (activities empty_store ++
      [mkActivityRow (iso0 (ae_now (ae_at (30 * sec) true)))
         (fst (get_active_window (ae_probe (ae_at (30 * sec) true))))
         (snd (get_active_window (ae_probe (ae_at (30 * sec) true)))) b64_img ocr_text
         true])%list.
Proof.
  pose proof (activity_row_contents iso0 (ae_at (30 * sec) true) mon0 empty_store) as H.
  assert (Hw : let '(_, st', _) := activity_tick iso0 (ae_at (30 * sec) true) mon0
                                     empty_store in
               activities st' <> activities empty_store)
    by (vm_compute; discriminate).
  destruct (activity_tick iso0 (ae_at (30 * sec) true) mon0 empty_store) as [[m' st'] e].
  split; [exact Hw | exact (H Hw)].
Defined.

Lemma capture_screenshot_no_sleep (ocr_enabled : bool) (se : ShotEnv) (ms : Z) :
  ~ In (ESleepMs ms) (snd (capture_screenshot ocr_enabled se)).
Proof.
  unfold capture_screenshot, process_ocr.
  destruct (se_grab_ok se), (se_save_ok se), ocr_enabled, (se_ocr se), (se_thumb se);
    cbn; intuition discriminate.
Qed.

(** When the INSERT raises, the [except] clause of [monitor_activities] and of
    [monitor_system] skips the iteration's [time.sleep]: the next iteration
    starts at once, with the database and [last_screenshot] untouched, so an
    activity capture is attempted again straight away. *)
Theorem store_failure_no_sleep (isoformat : Z -> string) (ae : ActEnv) (sy : SysEnv)
  (m : Monitor) (st : Store) :
  monitoring_enabled m = true ->
  let m1 := fst (check_activity (get_active_window (ae_probe ae)) (ae_t_check ae) m) in
  ((ae_now ae - last_activity m1 <? INACTIVITY_THRESHOLD * sec) = true ->
   (ae_now ae - last_screenshot m1 >=? SCREENSHOT_INTERVAL_ACTIVE * sec) = true ->
   shot_ok (ae_shot ae) = true -> ae_db_ok ae = false ->
   let '(m', st', eff) := activity_tick isoformat ae m st in
   m' = m1 /\ st' = st /\ forall ms, ~ In (ESleepMs ms) eff) /\
  (sy_db_ok sy = false ->
   let '(m', st', eff) := system_tick isoformat sy m st in
   m' = m /\ st' = st /\ forall ms, ~ In (ESleepMs ms) eff).
Proof.
  intros Hen m1; split.
  - intros Hi Hs Hok Hdb.
    unfold activity_tick; rewrite Hen; cbn [negb].
    unfold m1 in *.
    destruct (check_activity (get_active_window (ae_probe ae)) (ae_t_check ae) m) as [c1 x].
    cbn [fst] in Hi, Hs |- *; rewrite Hi, Hs.
    unfold shot_ok in Hok.
    pose proof (capture_screenshot_no_sleep OCR_ENABLED (ae_shot ae)) as Hn.
    destruct (capture_screenshot OCR_ENABLED (ae_shot ae)) as [[[p b] o] eff].
    cbn [snd] in Hn.
    destruct b as [b |]; [| discriminate]; rewrite Hok, Hdb.
    split; [reflexivity | split; [reflexivity |]].
    intros ms Hin; apply in_app_or in Hin as [Hin | [Hin | []]];
      [exact (Hn ms Hin) | discriminate].
  - intros Hdb; unfold system_tick; rewrite Hen, Hdb; cbn.
    split; [reflexivity | split; [reflexivity |]].
    intros ms; intuition discriminate.
Qed.

Lemma store_failure_no_sleep_witness :
  let ae := ae_at (30 * sec) false in
  let m1 := fst (check_activity (get_active_window (ae_probe ae)) (ae_t_check ae) mon0) in
  monitoring_enabled mon0 = true /\
  (ae_now ae - last_activity m1 <? INACTIVITY_THRESHOLD * sec) = true /\
  (ae_now ae - last_screenshot m1 >=? SCREENSHOT_INTERVAL_ACTIVE * sec) = true /\
  shot_ok (ae_shot ae) = true /\ ae_db_ok ae = false /\
  (let '(m', st', eff) := activity_tick iso0 ae mon0 empty_store in
   m' = m1 /\ st' = empty_store /\ forall ms, ~ In (ESleepMs ms) eff).
Proof.
  cbv zeta.
  split; [reflexivity |]; split; [vm_compute; reflexivity |];
  split; [vm_compute; reflexivity |]; split; [vm_compute; reflexivity |];
  split; [reflexivity |].
  apply (proj1 (store_failure_no_sleep iso0 (ae_at (30 * sec) false) sy0 mon0
                  empty_store eq_refl)); vm_compute; reflexivity.
Defined.

(** Newest first on file names. *)
Lemma insert_name_desc_perm (x : string) (l : list string) :
  Permutation (insert_name_desc x l) (x :: l).
Proof.
  induction l as [| y l IH]; cbn [insert_name_desc]; [reflexivity |].
  destruct (String.leb y x); [reflexivity |].
  transitivity (y :: x :: l); [constructor; exact IH | constructor].
Qed.

Lemma sort_names_desc_perm (l : list string) : Permutation (sort_names_desc l) l.
Proof.
  induction l as [| x l IH]; cbn [sort_names_desc fold_right]; [reflexivity |].
  rewrite insert_name_desc_perm; constructor; exact IH.
Qed.

Lemma insert_name_desc_sorted (x : string) (l : list string) :
  Sorted (fun a b => String.leb b a = true) l ->
  Sorted (fun a b => String.leb b a = true) (insert_name_desc x l).
Proof.
  induction l as [| y l IH]; intros Hs; cbn [insert_name_desc].
  - constructor; constructor.
  - destruct (String.leb y x) eqn:E.
    + constructor; [exact Hs | constructor; exact E].
    + inversion Hs as [| ? ? Hl Hhd]; subst.
      constructor; [apply IH; exact Hl |].
      assert (Hyx : String.leb x y = true)
        by (destruct (String.leb_total y x) as [H | H]; [rewrite H in E; discriminate | exact H]).
      destruct l as [| z l]; cbn [insert_name_desc]; [constructor; exact Hyx |].
      destruct (String.leb z x); constructor; [exact Hyx | inversion Hhd; assumption].
Qed.

Lemma sort_names_desc_sorted (l : list string) :
  Sorted (fun a b => String.leb b a = true) (sort_names_desc l).
Proof.
  induction l as [| x l IH]; cbn [sort_names_desc fold_right]; [constructor |].
  apply insert_name_desc_sorted; exact IH.
Qed.

Lemma newest_with_suffix_props (suffix : string) (n : nat) (files : list string) :
  let sel := newest_with_suffix suffix n files in
  (forall f, In f sel -> In f files /\ ends_with suffix f = true) /\
  (exists rest, Permutation (filter (ends_with suffix) files) (sel ++ rest) /\
                Sorted (fun a b => String.leb b a = true) (sel ++ rest)) /\
  Sorted (fun a b => String.leb b a = true) sel /\
  length sel = Nat.min n (length (filter (ends_with suffix) files)).
Proof.
  cbv zeta; unfold newest_with_suffix.
  set (fl := filter (ends_with suffix) files).
  pose proof (sort_names_desc_perm fl) as Hp.
  pose proof (sort_names_desc_sorted fl) as Hs.
  pose proof (firstn_skipn n (sort_names_desc fl)) as Hfs.
  split.
  { intros f Hf.
    assert (Hin : In f fl).
    { apply (Permutation_in _ Hp); rewrite <- Hfs; apply in_or_app; left; exact Hf. }
    apply filter_In in Hin; exact Hin. }
  split; [exists (skipn n (sort_names_desc fl)); rewrite Hfs; split;
          [symmetry; exact Hp | exact Hs] |].
  split; [apply (sorted_app_l _ _ (skipn n (sort_names_desc fl))); rewrite Hfs; exact Hs |].
  rewrite length_firstn, (Permutation_length Hp); reflexivity.
Qed.

(** [/media-list]: the [screenshots] list holds at most five names of the
    screenshot directory ending in [.jpg], the [videos] list at most three
    names of the video directory ending in [.mp4]; each is in descending
    name order and is the start of the whole matching listing sorted that
    way, of length [min 5 n] (resp. [min 3 n]) for [n] matching names. *)
Theorem get_media_list_spec (shots vids : list string) :
  let '(js, vs) := get_media_list shots vids in
  ((forall f, In f js -> In f shots /\ ends_with ".jpg" f = true) /\
   (exists rest, Permutation (filter (ends_with ".jpg") shots) (js ++ rest) /\
                 Sorted (fun a b => String.leb b a = true) (js ++ rest)) /\
   Sorted (fun a b => String.leb b a = true) js /\
   length js = Nat.min 5 (length (filter (ends_with ".jpg") shots))) /\
  ((forall f, In f vs -> In f vids /\ ends_with ".mp4" f = true) /\
   (exists rest, Permutation (filter (ends_with ".mp4") vids) (vs ++ rest) /\
                 Sorted (fun a b => String.leb b a = true) (vs ++ rest)) /\
   Sorted (fun a b => String.leb b a = true) vs /\
   length vs = Nat.min 3 (length (filter (ends_with ".mp4") vids))).
Proof.
  unfold get_media_list.
  exact (conj (newest_with_suffix_props ".jpg" 5 shots)
              (newest_with_suffix_props ".mp4" 3 vids)).
Qed.












Example media_list_ex :
  get_media_list ["a.jpg"; "b.txt"; "c.jpg"; "d.mp4"] ["v1.mp4"; "v3.mp4"; "x.jpg"] =
  (["c.jpg"; "a.jpg"], ["v3.mp4"; "v1.mp4"]).
Proof. vm_compute. reflexivity. Qed.

Lemma capture_thumbnail_implies_saved_witness :
  Some "QUJD" <> None /\
  (let '((path, b64_img, ocr_text), eff) := capture_screenshot OCR_ENABLED shot_good in
   path = Some (screenshot_path shot_good) /\
   In EGrabScreen eff /\ In (ESaveFile (screenshot_path shot_good)) eff).
Proof.
  split; [discriminate |].
  pose proof (capture_thumbnail_implies_saved OCR_ENABLED shot_good) as H.
  destruct (capture_screenshot OCR_ENABLED shot_good) as [[[p b] o] e] eqn:E.
  apply (proj1 H).
  vm_compute in E; inversion E; discriminate.
Defined.

Lemma screenshot_min_spacing_witness :
  let '(m1, st1, _) := activity_tick iso0 (ae_at (30 * sec) true) mon0 empty_store in
  activities st1 <> activities empty_store /\
  ae_now (ae_at (40 * sec) true) - ae_now (ae_at (30 * sec) true)
    < SCREENSHOT_INTERVAL_ACTIVE * sec /\
  (let '(_, st2, _) := activity_tick iso0 (ae_at (40 * sec) true) m1 st1 in
   activities st2 = activities st1).
Proof.
  pose proof (screenshot_min_spacing iso0 (ae_at (30 * sec) true) (ae_at (40 * sec) true)
                mon0 empty_store) as H.
  assert (Hw : let '(m1, st1, _) := activity_tick iso0 (ae_at (30 * sec) true) mon0
                                      empty_store in
               activities st1 <> activities empty_store)
    by (vm_compute; discriminate).
  assert (Hlt : ae_now (ae_at (40 * sec) true) - ae_now (ae_at (30 * sec) true)
                  < SCREENSHOT_INTERVAL_ACTIVE * sec) by (vm_compute; reflexivity).
  destruct (activity_tick iso0 (ae_at (30 * sec) true) mon0 empty_store) as [[m1 st1] e].
  split; [exact Hw | split; [exact Hlt | exact (H Hw Hlt)]].
Defined.

Lemma get_media_list_spec_witness :
  In "c.jpg" (fst (get_media_list ["a.jpg"; "b.txt"; "c.jpg"] [])) /\
  In "c.jpg" ["a.jpg"; "b.txt"; "c.jpg"] /\ ends_with ".jpg" "c.jpg" = true.
Proof.
  pose proof (get_media_list_spec ["a.jpg"; "b.txt"; "c.jpg"] []) as H.
  assert (Hin : In "c.jpg" (fst (get_media_list ["a.jpg"; "b.txt"; "c.jpg"] [])))
    by (vm_compute; left; reflexivity).
  destruct (get_media_list ["a.jpg"; "b.txt"; "c.jpg"] []) as [js vs].
  split; [exact Hin | exact (proj1 (proj1 H) "c.jpg" Hin)].
Defined.
